(** * go-vnc client: connection establishment and the message dispatch loop

    A shallow embedding of [vncclient.go] (package [vnc]): [NewClientConfig],
    [Connect], [ClientConn.Close] and [ClientConn.ListenAndHandle].

    Go pointers are flattened into explicit state passing.  The objects that
    outlive a call and that the caller can still observe -- the [net.Conn]
    handed to [Connect], the process's standard output, and the consumer
    channel named by the configuration -- live in a [World] that every
    operation threads through.  A [*ClientConn] receiver becomes a
    [ClientConn] value taken and returned. *)

From Equations Require Import Equations.
From stdpp Require Import base option list gmap strings.
From Stdlib.Strings Require Import Byte.

Set Default Proof Using "Type".

(** ** Bytes as map keys

    The dispatch table is a Go [map[uint8]ServerMessage]; [uint8] is modelled
    by [byte], which has exactly the 256 values of the Go type. *)

#[global] Instance byte_eq_dec : EqDecision byte := Byte.byte_eq_dec.
#[global] Instance byte_countable : Countable byte :=
  inj_countable Byte.to_N Byte.of_N Byte.of_to_N.

(** [fmt.Println s] writes [s] followed by a newline. *)
Definition newline : string := String (Ascii.ascii_of_nat 10) EmptyString.

(** The zero value of a Go type. *)
Class GoZero (A : Type) := go_zero : A.
#[global] Hint Mode GoZero ! : typeclass_instances.

(** A [chan ServerMessage] is a reference; channels are told apart by an
    identifier and the values sent on them are recorded in the [World]. *)
Definition chan := nat.

(** ** The network connection ([net.Conn])

    [inbound] holds the bytes the server has sent and the client has not read
    yet; once it is exhausted a read fails (end of stream).  [outbound] holds
    what the client wrote.  [closed] is set by [Close]. *)
Record NetConn := mkNetConn {
  inbound : list byte;
  outbound : list byte;
  closed : bool
}.

Definition set_inbound (bs : list byte) (nc : NetConn) : NetConn :=
  {| inbound := bs; outbound := outbound nc; closed := closed nc |}.

Section Vnc.

(** Declarations of package [vnc] that live in other files of the
    repository: the [error] values, the wire-level types stored in a
    session, and the two interfaces [ClientAuth] and [ServerMessage]. *)
Context {error Color Encoding PixelFormat ClientAuth ServerMessage : Type}.
Context {zeroColor : GoZero Color} {zeroPixelFormat : GoZero PixelFormat}.

(** [NewVNCError] builds the package's error value from a description;
    [net_ErrClosed] is what [net.Conn.Close] answers on a connection that is
    already closed. *)
Class Errors := {
  NewVNCError : string → error;
  net_ErrClosed : error
}.
Context {errors : Errors}.

(** ** [ClientConfig]

    [ServerMessages] is a slice that the code compares with [nil], so it is
    an [option]: [None] is the nil slice, [Some []] an empty slice.
    [ServerMessageCh] is [None] for the nil channel. *)
Record ClientConfig := mkClientConfig {
  Auth : list ClientAuth;
  Password : string;
  Exclusive : bool;
  ServerMessageCh : option chan;
  ServerMessages : option (list ServerMessage)
}.

(** ** [ClientConn]

    The field [c net.Conn] is the handle on the connection object, whose
    state is [net] of the [World]; the other fields are as in the source. *)
Record ClientConn := mkClientConn {
  config : ClientConfig;
  protocolVersion : string;
  ColorMap : list Color;
  Encodings : list Encoding;
  FramebufferWidth : N;
  FramebufferHeight : N;
  desktopName : string;
  PixelFormat_ : PixelFormat
}.

(** ** The world outside the session *)
Record World := mkWorld {
  net : NetConn;
  stdout : list string;
  sent : list (chan * ServerMessage)
}.

Definition set_net (nc : NetConn) (w : World) : World :=
  {| net := nc; stdout := stdout w; sent := sent w |}.

Definition Println (s : string) (w : World) : World :=
  {| net := net w; stdout := stdout w ++ [s +:+ newline]; sent := sent w |}.

Definition Printf (s : string) (w : World) : World :=
  {| net := net w; stdout := stdout w ++ [s]; sent := sent w |}.

(** [ch <- m], with a consumer that eventually receives. *)
Definition chan_send (ch : chan) (m : ServerMessage) (w : World) : World :=
  {| net := net w; stdout := stdout w; sent := sent w ++ [(ch, m)] |}.

(** [net.Conn.Close]. *)
Definition net_Close (nc : NetConn) : option error * NetConn :=
  (if closed nc then Some net_ErrClosed else None,
   {| inbound := inbound nc; outbound := outbound nc; closed := true |}).

(** [binary.Read(c.c, binary.BigEndian, &messageType)] for a [uint8]: one
    byte is taken from the stream, or the read fails. *)
Definition binary_Read_uint8 (nc : NetConn) : option (byte * NetConn) :=
  if closed nc then None
  else match inbound nc with
       | [] => None
       | b :: rest => Some (b, set_inbound rest nc)
       end.

(** ** The interfaces *)

(** A method on [*ClientConn] that performs I/O and returns an [error]. *)
Definition method : Type := ClientConn → World → option error * ClientConn * World.

(** The five handshake methods of [ClientConn]. *)
Class Handshake := {
  protocolVersionHandshake : method;
  securityHandshake : method;
  securityResultHandshake : method;
  clientInit : method;
  serverInit : method
}.

(** What [msg.Read(c, c.c)] did: how many bytes it took from the reader, the
    session as it left it, and the decoded message or the error. *)
Record ReadResult := mkReadResult {
  consumed : nat;
  conn_after : ClientConn;
  parsed : ServerMessage + error
}.

(** The [ServerMessage] interface: [Type()] and [Read(c, r)].  A decoder is
    given the session and the unread bytes of the reader. *)
Class ServerMessageOps := {
  msg_Type : ServerMessage → byte;
  msg_Read : ServerMessage → ClientConn → list byte → ReadResult
}.

(** The values [NewClientConfig] puts in a configuration. *)
Class Defaults := {
  ClientAuthNone : ClientAuth;
  ClientAuthVNC : string → ClientAuth;
  NewFramebufferUpdateMessage : option (list Encoding) → ServerMessage;
  SetColorMapEntriesMessage : ServerMessage;
  BellMessage : ServerMessage;
  ServerCutTextMessage : ServerMessage
}.

Context {handshake : Handshake} {messages : ServerMessageOps} {defaults : Defaults}.

(** ** [Close] *)
Definition Close (conn : ClientConn) (w : World) : option error * World :=
  let w := Println "VNC Client connection closed." w in
  let '(err, nc) := net_Close (net w) in
  (err, set_net nc w).

(** ** [Connect]

    The context argument is not used by the source; the [net.Conn] argument
    is [net] of the world. *)
Definition new_conn (cfg : ClientConfig) : ClientConn :=
  {| config := cfg;
     protocolVersion := "";
     ColorMap := replicate 256 go_zero;
     Encodings := [];
     FramebufferWidth := 0;
     FramebufferHeight := 0;
     desktopName := "";
     PixelFormat_ := go_zero |}.

Definition Connect (cfg : ClientConfig) (w : World)
  : option ClientConn * option error * World :=
  let conn := new_conn cfg in
  match protocolVersionHandshake conn w with
  | (Some err, conn, w) => (None, Some err, (Close conn w).2)
  | (None, conn, w) =>
  match securityHandshake conn w with
  | (Some err, conn, w) => (None, Some err, (Close conn w).2)
  | (None, conn, w) =>
  match securityResultHandshake conn w with
  | (Some err, conn, w) => (None, Some err, (Close conn w).2)
  | (None, conn, w) =>
  match clientInit conn w with
  | (Some err, conn, w) => (None, Some err, (Close conn w).2)
  | (None, conn, w) =>
  match serverInit conn w with
  | (Some err, conn, w) => (None, Some err, (Close conn w).2)
  | (None, conn, w) => (Some conn, None, w)
  end end end end end.

(** ** [NewClientConfig] *)
Definition NewClientConfig (p : string) : ClientConfig :=
  {| Auth := [ClientAuthNone; ClientAuthVNC p];
     Password := p;
     Exclusive := false;
     ServerMessageCh := None;
     ServerMessages := Some [NewFramebufferUpdateMessage None;
                             SetColorMapEntriesMessage;
                             BellMessage;
                             ServerCutTextMessage] |}.

(** ** [ListenAndHandle] *)

(** The lookup table built before the loop:
    [for _, m := range c.config.ServerMessages { serverMessages[m.Type()] = m }]. *)
Definition serverMessages (declared : list ServerMessage) : gmap byte ServerMessage :=
  foldl (λ table m, <[msg_Type m := m]> table) ∅ declared.

(** Why the loop was left; the source prints a different line in each case
    and then discards the difference. *)
Inductive BreakCause := ReadingFromServer | UnsupportedMessageType | ParsingMessage.

Inductive Step :=
| Break (cause : BreakCause) (conn : ClientConn) (w : World)
| Continue (conn : ClientConn) (w : World).

(** One pass through the body of the [for] loop. *)
Definition iteration (table : gmap byte ServerMessage) (conn : ClientConn) (w : World) : Step :=
  match binary_Read_uint8 (net w) with
  | None => Break ReadingFromServer conn (Println "error: reading from server" w)
  | Some (messageType, nc) =>
    let w := set_net nc w in
    match table !! messageType with
    | None => Break UnsupportedMessageType conn (Printf "error: unsupported message type" w)
    | Some msg =>
      let r := msg_Read msg conn (inbound nc) in
      let w := set_net (set_inbound (drop (consumed r) (inbound nc)) nc) w in
      let conn := conn_after r in
      match parsed r with
      | inr _ => Break ParsingMessage conn (Println "error: parsing message" w)
      | inl parsedMsg =>
        match ServerMessageCh (config conn) with
        | None => Continue conn (Println "ignoring message; no server message channel" w)
        | Some ch => Continue conn (chan_send ch parsedMsg w)
        end
      end
    end
  end.

(** The [for] loop: iterate until an iteration breaks. *)
Equations? listen (table : gmap byte ServerMessage) (conn : ClientConn) (w : World)
  : BreakCause * ClientConn * World by wf (length (inbound (net w))) lt :=
  listen table conn w with Logic.inspect (iteration table conn w) := {
    | exist _ (Break cause conn' w') _ => (cause, conn', w')
    | exist _ (Continue conn' w') Hit => listen table conn' w' }.
Proof.
  (* every iteration that continues has taken the type byte off the stream *)
  clear listen. revert Hit. unfold iteration, binary_Read_uint8.
  destruct (closed (net w)); [done|].
  destruct (inbound (net w)) as [|b rest]; [done|].
  simpl. destruct (table !! b) as [msg|]; [|done].
  destruct (parsed _); [|done].
  destruct (ServerMessageCh _); intros [= <- <-]; simpl;
    rewrite length_drop; lia.
Qed.

(** [defer c.Close()] runs after the return value has been fixed. *)
Definition ListenAndHandle (conn : ClientConn) (w : World)
  : option error * ClientConn * World :=
  match ServerMessages (config conn) with
  | None =>
    (Some (NewVNCError "Client config error: ServerMessages undefined"),
     conn, (Close conn w).2)
  | Some declared =>
    let '(_, conn, w) := listen (serverMessages declared) conn w in
    (None, conn, (Close conn w).2)
  end.

(** ** Specification vocabulary *)

(** The line [Close] prints. *)
Definition closed_line : string := "VNC Client connection closed." +:+ newline.

(** The line the loop prints when it drops a message for want of a channel,
    and the line it prints on each way out. *)
Definition ignoring_line : string :=
  "ignoring message; no server message channel" +:+ newline.

Definition cause_line (cause : BreakCause) : string :=
  match cause with
  | ReadingFromServer => "error: reading from server" +:+ newline
  | UnsupportedMessageType => "error: unsupported message type"
  | ParsingMessage => "error: parsing message" +:+ newline
  end.

(** The handshake of section 4.1 of the specification: five named steps. *)
Inductive HandshakeStep :=
  ProtocolVersion | Security | SecurityResult | ClientInit | ServerInit.

Definition step_method (s : HandshakeStep) : method :=
  match s with
  | ProtocolVersion => protocolVersionHandshake
  | Security => securityHandshake
  | SecurityResult => securityResultHandshake
  | ClientInit => clientInit
  | ServerInit => serverInit
  end.

Definition handshake_order : list HandshakeStep :=
  [ProtocolVersion; Security; SecurityResult; ClientInit; ServerInit].

(** Running steps one after the other, each on the state its predecessor
    left, and stopping at the first that fails. *)
Inductive Progress :=
| Established (conn : ClientConn) (w : World)
| FailedAt (s : HandshakeStep) (err : error) (conn : ClientConn) (w : World).

Fixpoint run_in_order (steps : list HandshakeStep) (conn : ClientConn) (w : World)
  : Progress :=
  match steps with
  | [] => Established conn w
  | s :: steps =>
    match step_method s conn w with
    | (Some err, conn, w) => FailedAt s err conn w
    | (None, conn, w) => run_in_order steps conn w
    end
  end.

(** [Frames table conn bs msgs conn' bs']: read by a session in state
    [conn], the stream [bs] starts with well-formed messages of types
    registered in [table]; they decode, in this order, to [msgs], and leave
    the session in state [conn'] and the bytes [bs'] unread. *)
Inductive Frames (table : gmap byte ServerMessage)
  : ClientConn → list byte → list ServerMessage → ClientConn → list byte → Prop :=
| Frames_done conn bs : Frames table conn bs [] conn bs
| Frames_message conn messageType body msg parsedMsg msgs conn' bs' :
    table !! messageType = Some msg →
    parsed (msg_Read msg conn body) = inl parsedMsg →
    Frames table (conn_after (msg_Read msg conn body))
           (drop (consumed (msg_Read msg conn body)) body) msgs conn' bs' →
    Frames table conn (messageType :: body) (parsedMsg :: msgs) conn' bs'.

(** [Stops table conn bs]: a session in state [conn] reading [bs] leaves the
    loop in its next iteration -- the stream is over, or its first byte is
    of no registered type, or the decoder of that type fails. *)
Definition Stops (table : gmap byte ServerMessage) (conn : ClientConn)
    (bs : list byte) : Prop :=
  match bs with
  | [] => True
  | messageType :: body =>
    match table !! messageType with
    | None => True
    | Some msg => ∃ err, parsed (msg_Read msg conn body) = inr err
    end
  end.

(** The documented contract of [ClientConfig] -- once passed to a connection
    it must not be modified -- as it binds the message decoders. *)
Definition config_not_modified : Prop :=
  ∀ msg conn body, config (conn_after (msg_Read msg conn body)) = config conn.

(** What the world looks like once the loop has handled [msgs] and is about
    to read [bs']: sent on the channel when there is one, logged and
    dropped when there is none. *)
Definition handled (ch : option chan) (msgs : list ServerMessage) (bs' : list byte)
    (w : World) : World :=
  match ch with
  | Some ch =>
    {| net := set_inbound bs' (net w);
       stdout := stdout w;
       sent := sent w ++ ((λ m, (ch, m)) <$> msgs) |}
  | None =>
    {| net := set_inbound bs' (net w);
       stdout := stdout w ++
         replicate (length msgs) ("ignoring message; no server message channel" +:+ newline);
       sent := sent w |}
  end.

(** What the messages [msgs] leave behind once handled: a line on standard
    output for each when there is no channel, a send for each when there is
    one. *)
Definition dropped_lines (ch : option chan) (msgs : list ServerMessage) : list string :=
  match ch with
  | Some _ => []
  | None => replicate (length msgs) ignoring_line
  end.

Definition delivered (ch : option chan) (msgs : list ServerMessage)
  : list (chan * ServerMessage) :=
  match ch with
  | Some ch => (λ m, (ch, m)) <$> msgs
  | None => []
  end.

(** What the iteration does that finds the loop at a point where it stops:
    the cause, the session it leaves, and the bytes it leaves unread. *)
Definition stop_outcome (table : gmap byte ServerMessage) (conn : ClientConn)
    (bs : list byte) : BreakCause * ClientConn * list byte :=
  match bs with
  | [] => (ReadingFromServer, conn, [])
  | messageType :: body =>
    match table !! messageType with
    | None => (UnsupportedMessageType, conn, body)
    | Some msg =>
      (ParsingMessage, conn_after (msg_Read msg conn body),
       drop (consumed (msg_Read msg conn body)) body)
    end
  end.

End Vnc.

(** ** A small instance for the examples

    Fixtures in the manner of a Go test's stub types: a scripted server, the
    four RFC 6143 server messages with reduced bodies, and handshake steps
    that each exchange one byte.  They stand in for the files of the package
    that define the real decoders and handshake methods. *)
Module Fixture.

Inductive error := VNCError (desc : string) | ErrClosed.
Definition Color : Type := N * N * N.
Definition Encoding : Type := N.
Definition PixelFormat : Type := N.
Inductive ClientAuth := AuthNone | AuthVNC (password : string).
Inductive ServerMessage :=
| FramebufferUpdate (encs : option (list Encoding))
| SetColorMapEntries (first : N) (colors : list Color)
| Bell
| ServerCutText (text : list byte)
| Extension (code : byte).

#[global] Instance zeroColor : GoZero Color := (0, 0, 0)%N.
#[global] Instance zeroPixelFormat : GoZero PixelFormat := 0%N.
#[global] Instance errors : @Errors error :=
  {| NewVNCError := VNCError; net_ErrClosed := ErrClosed |}.
#[global] Instance defaults : @Defaults Encoding ClientAuth ServerMessage :=
  {| ClientAuthNone := AuthNone;
     ClientAuthVNC := AuthVNC;
     NewFramebufferUpdateMessage := FramebufferUpdate;
     SetColorMapEntriesMessage := SetColorMapEntries 0 [];
     BellMessage := Bell;
     ServerCutTextMessage := ServerCutText [] |}.

Definition Conn : Type :=
  @ClientConn Color Encoding PixelFormat ClientAuth ServerMessage.
Definition Config : Type := @ClientConfig ClientAuth ServerMessage.
Definition W : Type := @World ServerMessage.
Definition Result : Type :=
  @ReadResult error Color Encoding PixelFormat ClientAuth ServerMessage.

(** Message type codes of RFC 6143, section 7.6. *)
Definition type_code (m : ServerMessage) : byte :=
  match m with
  | FramebufferUpdate _ => x00
  | SetColorMapEntries _ _ => x01
  | Bell => x02
  | ServerCutText _ => x03
  | Extension code => code
  end.

Definition ok (n : nat) (conn : Conn) (m : ServerMessage) : Result :=
  {| consumed := n; conn_after := conn; parsed := inl m |}.
Definition failed (n : nat) (conn : Conn) (desc : string) : Result :=
  {| consumed := n; conn_after := conn; parsed := inr (VNCError desc) |}.

Definition set_ColorMap (cm : list Color) (conn : Conn) : Conn :=
  {| config := config conn; protocolVersion := protocolVersion conn;
     ColorMap := cm; Encodings := Encodings conn;
     FramebufferWidth := FramebufferWidth conn;
     FramebufferHeight := FramebufferHeight conn;
     desktopName := desktopName conn; PixelFormat_ := PixelFormat_ conn |}.

(** Reduced bodies: a bell has none; a cut text is a length byte and that
    many bytes of text; a colour-map message is an index byte and one grey
    level, stored in the session's colour map; a framebuffer update is a
    rectangle count, and only the empty update decodes; an extension is a
    single payload byte. *)
Definition read (m : ServerMessage) (conn : Conn) (r : list byte) : Result :=
  match m with
  | Bell => ok 0 conn Bell
  | ServerCutText _ =>
    match r with
    | [] => failed 0 conn "cut text: no length"
    | n :: text =>
      let len := N.to_nat (Byte.to_N n) in
      if decide (len ≤ length text)
      then ok (S len) conn (ServerCutText (take len text))
      else failed (S (length text)) conn "cut text: short read"
    end
  | SetColorMapEntries _ _ =>
    match r with
    | i :: g :: _ =>
      let c : Color := (Byte.to_N g, Byte.to_N g, Byte.to_N g) in
      ok 2 (set_ColorMap (<[N.to_nat (Byte.to_N i) := c]> (ColorMap conn)) conn)
         (SetColorMapEntries (Byte.to_N i) [c])
    | _ => failed (length r) conn "colour map: short read"
    end
  | FramebufferUpdate _ =>
    match r with
    | x00 :: _ => ok 1 conn (FramebufferUpdate (Some (Encodings conn)))
    | _ :: _ => failed 1 conn "framebuffer update: no decoder for the rectangle"
    | [] => failed 0 conn "framebuffer update: no rectangle count"
    end
  | Extension code =>
    match r with
    | _ :: _ => ok 1 conn (Extension code)
    | [] => failed 0 conn "extension: short read"
    end
  end.

#[global] Instance messages
  : @ServerMessageOps error Color Encoding PixelFormat ClientAuth ServerMessage :=
  {| msg_Type := type_code; msg_Read := read |}.

(** A handshake step of the scripted exchange: the server sends one byte,
    zero for a refusal; the client answers with the number of the step. *)
Definition step (number : byte) (name : string) (conn : Conn) (w : W)
  : option error * Conn * W :=
  match binary_Read_uint8 (net w) with
  | None => (Some (VNCError (name +:+ ": read failed")), conn, w)
  | Some (x00, nc) => (Some (VNCError (name +:+ ": refused")), conn, set_net nc w)
  | Some (_, nc) =>
    (None, conn,
     set_net {| inbound := inbound nc; outbound := outbound nc ++ [number];
                closed := closed nc |} w)
  end.

#[global] Instance handshake
  : @Handshake error Color Encoding PixelFormat ClientAuth ServerMessage :=
  {| protocolVersionHandshake := step x01 "protocol version";
     securityHandshake := step x02 "security";
     securityResultHandshake := step x03 "security result";
     clientInit := step x04 "client init";
     serverInit := step x05 "server init" |}.

Definition server (bs : list byte) : W :=
  {| net := {| inbound := bs; outbound := []; closed := false |};
     stdout := []; sent := [] |}.

Definition with_channel (ch : option chan) (cfg : Config) : Config :=
  {| Auth := Auth cfg; Password := Password cfg; Exclusive := Exclusive cfg;
     ServerMessageCh := ch; ServerMessages := ServerMessages cfg |}.

Definition with_messages (ms : option (list ServerMessage)) (cfg : Config) : Config :=
  {| Auth := Auth cfg; Password := Password cfg; Exclusive := Exclusive cfg;
     ServerMessageCh := ServerMessageCh cfg; ServerMessages := ms |}.

(** Configurations of the examples. *)
Definition cfg_default : Config := NewClientConfig "pw".
Definition cfg_channel : Config := with_channel (Some 7) cfg_default.
Definition cfg_nil_messages : Config := with_messages None cfg_channel.
Definition cfg_extension_only : Config :=
  with_messages (Some [Extension x09]) cfg_channel.

(** A session as [Connect] first builds it. *)
Definition session (cfg : Config) : Conn := new_conn cfg.

(** The four messages every RFC 6143 server may send. *)
Definition mandated : list ServerMessage :=
  [NewFramebufferUpdateMessage None; SetColorMapEntriesMessage;
   BellMessage; ServerCutTextMessage].

(** A bell, the cut text [ab], then a byte of no registered type and a
    further bell. *)
Definition stream_with_unknown_type : list byte :=
  [x02; x03; x02; x61; x62; x09; x02].

(** A bell, the cut text [ab], and grey level 64 for colour 1. *)
Definition stream_well_formed : list byte :=
  [x02; x03; x02; x61; x62; x01; x01; x40].

(** A bell, then a framebuffer update with a rectangle that has no decoder. *)
Definition stream_with_bad_body : list byte := [x02; x00; x01].

End Fixture.

(** * Properties *)

Section Properties.

Context {error Color Encoding PixelFormat ClientAuth ServerMessage : Type}.
Context {zeroColor : GoZero Color} {zeroPixelFormat : GoZero PixelFormat}.
Context {errors : @Errors error}.
Context {handshake : @Handshake error Color Encoding PixelFormat ClientAuth ServerMessage}.
Context {messages : @ServerMessageOps error Color Encoding PixelFormat ClientAuth ServerMessage}.
Context {defaults : @Defaults Encoding ClientAuth ServerMessage}.

Local Abbreviation ClientConn := (@ClientConn Color Encoding PixelFormat ClientAuth ServerMessage).
Local Abbreviation ClientConfig := (@ClientConfig ClientAuth ServerMessage).
Local Abbreviation World := (@World ServerMessage).

Implicit Types (conn : ClientConn) (cfg : ClientConfig) (w : World).
Implicit Types (table : gmap byte ServerMessage) (declared msgs : list ServerMessage).

(** *** [Close] *)

Lemma Close_closed conn w : closed (net (Close conn w).2) = true.
Proof. reflexivity. Qed.

Lemma Close_inbound conn w : inbound (net (Close conn w).2) = inbound (net w).
Proof. reflexivity. Qed.

Lemma Close_stdout conn w : stdout (Close conn w).2 = stdout w ++ [closed_line].
Proof. reflexivity. Qed.

Lemma Close_sent conn w : sent (Close conn w).2 = sent w.
Proof. reflexivity. Qed.

(** *** The loop, one iteration at a time *)

Lemma listen_step table conn w :
  listen table conn w =
  match iteration table conn w with
  | Break cause conn' w' => (cause, conn', w')
  | Continue conn' w' => listen table conn' w'
  end.
Proof.
  funelim (listen table conn w).
  all: match goal with H : iteration _ _ _ = _ |- _ => rewrite H end.
  all: try reflexivity.
Qed.

(** *** [Connect] *)

(** C1.  [Connect] is the five handshake steps run in the order protocol
    version, security, security result, client init, server init, each on
    the state its predecessor left.  It returns a session, and no error,
    exactly when all five succeed; when one fails it returns no session and
    the error of that step. *)
Theorem Connect_handshake_in_order cfg w :
  Connect cfg w =
    match run_in_order handshake_order (new_conn cfg) w with
    | Established conn w' => (Some conn, None, w')
    | FailedAt _ err conn w' => (None, Some err, (Close conn w').2)
    end
  ∧ (is_Some (Connect cfg w).1.1 ↔
     ∃ conn w', run_in_order handshake_order (new_conn cfg) w = Established conn w')
  ∧ (∀ s err conn w',
       run_in_order handshake_order (new_conn cfg) w = FailedAt s err conn w' →
       (Connect cfg w).1 = (None, Some err)).
Proof.
  assert (Heq : Connect cfg w =
    match run_in_order handshake_order (new_conn cfg) w with
    | Established conn w' => (Some conn, None, w')
    | FailedAt _ err conn w' => (None, Some err, (Close conn w').2)
    end).
  { unfold Connect, handshake_order. simpl.
    repeat match goal with
           | |- context [match ?step ?c ?x with _ => _ end] =>
             destruct (step c x) as [[[?|] ?] ?]; try reflexivity
           end. }
  split; [exact Heq|]. rewrite Heq.
  destruct (run_in_order _ _ _) as [conn' w'|s err conn' w']; simpl.
  - split; [split; eauto|]. intros ? ? ? ? [=].
  - split; [split|].
    + intros [? [=]].
    + intros (? & ? & [=]).
    + by intros ? ? ? ? [= _ -> _ _].
Qed.


(** *** [NewClientConfig] *)

(** C10.  The configuration [NewClientConfig p] offers no authentication
    and then VNC password authentication with [p], records [p] as the
    password, declares exactly the four messages the protocol requires,
    and names no consumer channel. *)
Theorem NewClientConfig_fields (p : string) :
  Auth (NewClientConfig p) = [ClientAuthNone; ClientAuthVNC p]
  ∧ Password (NewClientConfig p) = p
  ∧ ServerMessages (NewClientConfig p) =
      Some [NewFramebufferUpdateMessage None; SetColorMapEntriesMessage;
            BellMessage; ServerCutTextMessage]
  ∧ ServerMessageCh (NewClientConfig p) = None.
Proof. by repeat split. Qed.

(** *** [ListenAndHandle]: how it returns *)

(** C6.  With a message table configured, [ListenAndHandle] returns nil for
    whichever reason the loop was left -- the read of the type byte failed,
    the type is not registered, or the decoder failed. *)
Theorem ListenAndHandle_hides_cause conn w declared :
  ServerMessages (config conn) = Some declared →
  ∀ cause conn' w',
    listen (serverMessages declared) conn w = (cause, conn', w') →
    ListenAndHandle conn w = (None, conn', (Close conn' w').2).
Proof.
  intros Hcfg cause conn' w' Hrun. unfold ListenAndHandle.
  by rewrite Hcfg, Hrun.
Qed.

(** C7.  However [ListenAndHandle] returns, the connection is closed. *)
Theorem ListenAndHandle_closes conn w :
  closed (net (ListenAndHandle conn w).2) = true.
Proof.
  unfold ListenAndHandle.
  destruct (ServerMessages (config conn)) as [declared|]; [|done].
  by destruct (listen _ conn w) as [[cause conn'] w'].
Qed.

(** C8.  With a nil [ServerMessages], [ListenAndHandle] returns the
    configuration error; the stream has not been read, nothing was sent,
    and the only output is that of the deferred [Close]. *)
Theorem ListenAndHandle_nil_messages conn w :
  ServerMessages (config conn) = None →
  ListenAndHandle conn w =
    (Some (NewVNCError "Client config error: ServerMessages undefined"), conn,
     (Close conn w).2)
  ∧ inbound (net (ListenAndHandle conn w).2) = inbound (net w)
  ∧ sent (ListenAndHandle conn w).2 = sent w
  ∧ stdout (ListenAndHandle conn w).2 = stdout w ++ [closed_line].
Proof. intros Hcfg. unfold ListenAndHandle. by rewrite Hcfg. Qed.

(** *** The lookup table *)

Lemma serverMessages_acc declared table (b : byte) :
  is_Some (foldl (λ table m, <[msg_Type m := m]> table) table declared !! b) ↔
  is_Some (table !! b) ∨ ∃ m, m ∈ declared ∧ msg_Type m = b.
Proof.
  revert table. induction declared as [|d declared IH]; intros table; simpl.
  - split; [by left|]. intros [?|(m & Hm & _)]; [done|]. by apply elem_of_nil in Hm.
  - rewrite IH, lookup_insert. split.
    + intros [Hd|(m & Hm & Hb)].
      * case_decide; [|by left]. right. exists d. split; [left|done].
      * right. exists m. split; [by right|done].
    + intros [Hb|(m & Hm & Hb)].
      * left. by case_decide.
      * apply elem_of_cons in Hm as [->|Hm].
        -- left. by rewrite decide_True.
        -- right. by exists m.
Qed.

(** The table registers the declared types and no others. *)
Lemma serverMessages_registered declared (b : byte) :
  is_Some (serverMessages declared !! b) ↔ ∃ m, m ∈ declared ∧ msg_Type m = b.
Proof.
  unfold serverMessages. rewrite serverMessages_acc, lookup_empty.
  split; [|by right]. intros [[? [=]]|?]; done.
Qed.

(** *** Iterations on a well-formed message *)

Lemma handled_nil ch w : handled ch [] (inbound (net w)) w = w.
Proof. destruct w as [[? ? ?] ? ?], ch; simpl; by rewrite app_nil_r. Qed.

Lemma handled_closed ch msgs bs w :
  closed (net (handled ch msgs bs w)) = closed (net w).
Proof. by destruct ch. Qed.

Lemma handled_inbound ch msgs bs w : inbound (net (handled ch msgs bs w)) = bs.
Proof. by destruct ch. Qed.

Lemma handled_cons ch parsedMsg msgs bs bs' w :
  handled ch msgs bs' (handled ch [parsedMsg] bs w) = handled ch (parsedMsg :: msgs) bs' w.
Proof.
  destruct ch; simpl; unfold set_inbound; simpl; f_equal;
    by rewrite <- (assoc_L (++)).
Qed.

Lemma iteration_message table conn w messageType body msg parsedMsg :
  closed (net w) = false →
  inbound (net w) = messageType :: body →
  table !! messageType = Some msg →
  parsed (msg_Read msg conn body) = inl parsedMsg →
  iteration table conn w =
    Continue (conn_after (msg_Read msg conn body))
      (handled (ServerMessageCh (config (conn_after (msg_Read msg conn body))))
               [parsedMsg] (drop (consumed (msg_Read msg conn body)) body) w).
Proof.
  intros Hopen Hin Hreg Hok. unfold iteration, binary_Read_uint8.
  rewrite Hopen, Hin. simpl. rewrite Hreg, Hok.
  by destruct (ServerMessageCh _).
Qed.

Lemma Frames_config table conn bs msgs conn' bs' :
  config_not_modified →
  Frames table conn bs msgs conn' bs' → config conn' = config conn.
Proof.
  intros Hcfg Hfr. induction Hfr as [|? ? ? ? ? ? ? ? ? ? ? IH]; [done|].
  by rewrite IH, Hcfg.
Qed.

(** Every stream is a run of well-formed messages followed by a point at
    which the loop stops. *)
Lemma stream_decomposes table conn bs :
  ∃ msgs conn' bs', Frames table conn bs msgs conn' bs' ∧ Stops table conn' bs'.
Proof.
  remember (length bs) as n eqn:Hn. revert conn bs Hn.
  induction (lt_wf n) as [n _ IH]; intros conn bs ->.
  destruct bs as [|b body].
  { exists [], conn, []. split; [constructor|done]. }
  destruct (table !! b) as [msg|] eqn:Hreg.
  2: { exists [], conn, (b :: body). split; [constructor|]. simpl. by rewrite Hreg. }
  destruct (parsed (msg_Read msg conn body)) as [p|err] eqn:Hok.
  2: { exists [], conn, (b :: body). split; [constructor|]. simpl.
       rewrite Hreg. by exists err. }
  destruct (IH (length (drop (consumed (msg_Read msg conn body)) body))
               ltac:(rewrite length_drop; simpl; lia)
               (conn_after (msg_Read msg conn body)) _ eq_refl)
    as (msgs & conn' & bs' & Hfr & Hstop).
  exists (p :: msgs), conn', bs'. split; [|done].
  by eapply Frames_message.
Qed.

(** A well-formed prefix of the stream is worked off message by message:
    the loop arrives at the rest of the stream having handled exactly the
    decoded messages. *)
Lemma listen_frames table conn w msgs conn' bs' :
  config_not_modified →
  closed (net w) = false →
  Frames table conn (inbound (net w)) msgs conn' bs' →
  listen table conn w =
    listen table conn' (handled (ServerMessageCh (config conn)) msgs bs' w).
Proof.
  intros Hcfg Hopen Hfr.
  remember (inbound (net w)) as bs eqn:Hbs. revert w Hopen Hbs.
  induction Hfr as [conn bs|conn b body msg p msgs conn' bs' Hreg Hok Hfr IH];
    intros w Hopen Hbs.
  - by rewrite Hbs, handled_nil.
  - rewrite listen_step, (iteration_message _ _ _ b body msg p) by done.
    rewrite Hcfg. rewrite IH.
    + by rewrite Hcfg, handled_cons.
    + by rewrite handled_closed.
    + by rewrite handled_inbound.
Qed.

(** *** What the loop may add to the channel *)

Lemma iteration_sent table conn w :
  ∃ more,
    match iteration table conn w with
    | Break _ _ w' | Continue _ w' => sent w' = sent w ++ more
    end.
Proof.
  unfold iteration.
  destruct (binary_Read_uint8 (net w)) as [[b nc]|]; simpl;
    [|by exists []; rewrite app_nil_r].
  destruct (table !! b) as [msg|]; simpl; [|by exists []; rewrite app_nil_r].
  destruct (parsed _) as [p|e]; simpl; [|by exists []; rewrite app_nil_r].
  destruct (ServerMessageCh _) as [ch|]; simpl;
    [by exists [(ch, p)]|by exists []; rewrite app_nil_r].
Qed.

Lemma listen_sent table conn w :
  ∃ more, sent (listen table conn w).2 = sent w ++ more.
Proof.
  funelim (listen table conn w);
    match goal with H : iteration _ _ _ = _ |- _ =>
      pose proof (iteration_sent table conn w) as [more Hmore];
      rewrite H in Hmore
    end.
  - by exists more.
  - match goal with IH : ∃ _, _ |- _ => destruct IH as [more' Hmore'] end.
    exists (more ++ more'). by rewrite Hmore', Hmore, (assoc_L (++)).
Qed.

(** Without a channel, and with the configuration left alone, an iteration
    sends nothing and leaves the channel unset. *)
Lemma iteration_no_channel table conn w :
  config_not_modified →
  ServerMessageCh (config conn) = None →
  match iteration table conn w with
  | Break _ conn' w' | Continue conn' w' =>
    ServerMessageCh (config conn') = None ∧ sent w' = sent w
  end.
Proof.
  intros Hcfg Hch. unfold iteration.
  destruct (binary_Read_uint8 (net w)) as [[b nc]|]; simpl; [|done].
  destruct (table !! b) as [msg|]; simpl; [|done].
  destruct (parsed _) as [p|e]; simpl; rewrite Hcfg, Hch; [|done].
  simpl. by rewrite Hcfg, Hch.
Qed.

Lemma listen_no_channel table conn w :
  config_not_modified →
  ServerMessageCh (config conn) = None →
  sent (listen table conn w).2 = sent w.
Proof.
  intros Hcfg. funelim (listen table conn w); intros Hch;
    match goal with H : iteration _ _ _ = _ |- _ =>
      pose proof (iteration_no_channel table conn w Hcfg Hch) as Hnone;
      rewrite H in Hnone; simpl in Hnone; destruct Hnone as [Hch' Hsent]
    end.
  - done.
  - match goal with IH : _ → _ → _ |- _ => by rewrite IH end.
Qed.

(** *** A whole run of the loop *)

Lemma handled_world ch msgs bs' w :
  handled ch msgs bs' w =
    {| net := set_inbound bs' (net w);
       stdout := stdout w ++ dropped_lines ch msgs;
       sent := sent w ++ delivered ch msgs |}.
Proof. destruct ch; simpl; by rewrite app_nil_r. Qed.

(** The stream up to the point where the loop stops determines the run: the
    messages before that point are handled one by one, and the iteration at
    that point leaves the loop. *)
Lemma listen_run table conn w msgs conn' bs' :
  config_not_modified →
  closed (net w) = false →
  Frames table conn (inbound (net w)) msgs conn' bs' →
  Stops table conn' bs' →
  listen table conn w =
    ((stop_outcome table conn' bs').1.1, (stop_outcome table conn' bs').1.2,
     {| net := set_inbound (stop_outcome table conn' bs').2 (net w);
        stdout := stdout w ++ dropped_lines (ServerMessageCh (config conn)) msgs ++
                  [cause_line (stop_outcome table conn' bs').1.1];
        sent := sent w ++ delivered (ServerMessageCh (config conn)) msgs |}).
Proof.
  intros Hcfg Hopen Hfr Hstop.
  rewrite (listen_frames _ _ _ _ _ _ Hcfg Hopen Hfr), handled_world, listen_step.
  unfold iteration, binary_Read_uint8, stop_outcome. simpl. rewrite Hopen.
  destruct bs' as [|b body]; simpl.
  { unfold Println. simpl. by rewrite <- (assoc_L (++)). }
  simpl in Hstop. destruct (table !! b) as [msg|]; simpl.
  - destruct Hstop as [err Herr]. rewrite Herr.
    unfold Println, set_net. simpl. by rewrite <- (assoc_L (++)).
  - unfold Printf, set_net. simpl. by rewrite <- (assoc_L (++)).
Qed.

(** *** [ListenAndHandle]: what it delivers *)

(** C4.  Let the stream begin with well-formed messages of registered types
    and continue with a type byte that is not registered.  Whether or not a
    consumer channel is configured, [ListenAndHandle] reports the unsupported
    type, closes the connection and returns, leaving the bytes after the
    offending type byte unread.  The messages decoded before that byte are
    all that was handled: with a channel they are sent on it, exactly these
    and in order; without one they are logged and dropped and nothing is
    sent. *)
Theorem unsupported_type_is_fatal conn w declared msgs conn' messageType rest :
  ServerMessages (config conn) = Some declared →
  config_not_modified →
  closed (net w) = false →
  Frames (serverMessages declared) conn (inbound (net w)) msgs conn' (messageType :: rest) →
  serverMessages declared !! messageType = None →
  ListenAndHandle conn w =
    (None, conn',
     {| net := {| inbound := rest; outbound := outbound (net w); closed := true |};
        stdout := stdout w ++ dropped_lines (ServerMessageCh (config conn)) msgs ++
                  ["error: unsupported message type"; closed_line];
        sent := sent w ++ delivered (ServerMessageCh (config conn)) msgs |}).
Proof.
  intros Hdecl Hcfg Hopen Hfr Hunreg. unfold ListenAndHandle. rewrite Hdecl.
  assert (Hstop : Stops (serverMessages declared) conn' (messageType :: rest)).
  { simpl. by rewrite Hunreg. }
  rewrite (listen_run _ _ _ _ _ _ Hcfg Hopen Hfr Hstop).
  unfold stop_outcome. rewrite Hunreg. simpl.
  unfold Close, closed_line, Println, set_net. simpl.
  by rewrite <- !(assoc_L (++)).
Qed.

(** C5.  Let the stream begin with well-formed messages of registered
    types.  With a consumer channel configured, [ListenAndHandle] sends each
    decoded message on the channel, one send per message, in the order of
    the wire, before anything it may send for the rest of the stream; when
    the messages are the whole stream, they are all that is sent. *)
Theorem messages_delivered_in_wire_order conn w declared ch msgs conn' bs' :
  ServerMessages (config conn) = Some declared →
  ServerMessageCh (config conn) = Some ch →
  config_not_modified →
  closed (net w) = false →
  Frames (serverMessages declared) conn (inbound (net w)) msgs conn' bs' →
  ∃ more,
    sent (ListenAndHandle conn w).2 = sent w ++ ((λ m, (ch, m)) <$> msgs) ++ more
    ∧ (bs' = [] → more = []).
Proof.
  intros Hdecl Hch Hcfg Hopen Hfr. unfold ListenAndHandle.
  rewrite Hdecl, (listen_frames _ _ _ _ _ _ Hcfg Hopen Hfr), Hch.
  destruct bs' as [|b rest].
  - exists []. split; [|done]. rewrite listen_step.
    unfold iteration, binary_Read_uint8. simpl. rewrite Hopen. simpl.
    by rewrite app_nil_r.
  - destruct (listen_sent (serverMessages declared) conn'
                (handled (Some ch) msgs (b :: rest) w)) as [more Hmore].
    exists more. split; [|done].
    destruct (listen _ _ _) as [[cause conn''] w'']. simpl in *.
    by rewrite Hmore, <- (assoc_L (++)).
Qed.

(** C9.  Let the stream begin with well-formed messages of registered types,
    up to the point where the loop stops.  With no consumer channel
    configured, [ListenAndHandle] decodes every one of them, prints the
    ignoring line for each and sends none, and reads on until that point:
    the only way out is the stop itself, whose line comes after theirs.  The
    call returns nil. *)
Theorem no_channel_discards_and_continues conn w declared msgs conn' bs' :
  ServerMessages (config conn) = Some declared →
  ServerMessageCh (config conn) = None →
  config_not_modified →
  closed (net w) = false →
  Frames (serverMessages declared) conn (inbound (net w)) msgs conn' bs' →
  Stops (serverMessages declared) conn' bs' →
  ListenAndHandle conn w =
    (None, (stop_outcome (serverMessages declared) conn' bs').1.2,
     {| net := {| inbound := (stop_outcome (serverMessages declared) conn' bs').2;
                  outbound := outbound (net w); closed := true |};
        stdout := stdout w ++ replicate (length msgs) ignoring_line ++
                  [cause_line (stop_outcome (serverMessages declared) conn' bs').1.1;
                   closed_line];
        sent := sent w |}).
Proof.
  intros Hdecl Hch Hcfg Hopen Hfr Hstop. unfold ListenAndHandle. rewrite Hdecl.
  rewrite (listen_run _ _ _ _ _ _ Hcfg Hopen Hfr Hstop), Hch.
  unfold Close, closed_line, Println, set_net. simpl.
  by rewrite app_nil_r, <- !(assoc_L (++)).
Qed.

End Properties.

(** * Examples on the fixture *)

Section Examples.
Import Fixture.

Lemma fixture_config_not_modified : @config_not_modified _ _ _ _ _ _ Fixture.messages.
Proof.
  intros msg conn body. destruct msg; simpl; repeat case_match; reflexivity.
Qed.

Lemma fixture_frames_unknown table conn :
  table = serverMessages mandated →
  Frames table conn stream_with_unknown_type
    [Bell; ServerCutText [x61; x62]] conn [x09; x02].
Proof.
  intros ->.
  eapply Frames_message; [by vm_compute|reflexivity|].
  eapply Frames_message; [by vm_compute|reflexivity|].
  apply Frames_done.
Qed.

(** The third step refuses: the caller gets that step's error and no
    session, and the first two answers have been written, in order. *)
Lemma Connect_handshake_in_order_witness :
  run_in_order handshake_order (session cfg_default) (server [x01; x01; x00; x01; x01]) =
    FailedAt SecurityResult (VNCError "security result: refused") (session cfg_default)
      {| net := {| inbound := [x01; x01]; outbound := [x01; x02]; closed := false |};
         stdout := []; sent := [] |}
  ∧ (Connect cfg_default (server [x01; x01; x00; x01; x01])).1 =
      (None, Some (VNCError "security result: refused")).
Proof.
  assert (Hrun : run_in_order handshake_order (session cfg_default)
                   (server [x01; x01; x00; x01; x01]) =
    FailedAt SecurityResult (VNCError "security result: refused") (session cfg_default)
      {| net := {| inbound := [x01; x01]; outbound := [x01; x02]; closed := false |};
         stdout := []; sent := [] |}) by reflexivity.
  split; [exact Hrun|].
  exact (proj2 (proj2 (Connect_handshake_in_order cfg_default
                         (server [x01; x01; x00; x01; x01]))) _ _ _ _ Hrun).
Defined.


(** C3.  A configuration that declares only a new message type, as the
    comment on [ClientConfig.ServerMessages] says is enough: none of the
    four mandated types is in the table, and a bell from the server ends the
    loop as an unsupported message. *)
Theorem mandated_types_not_registered :
  ServerMessages cfg_extension_only = Some [Extension x09]
  ∧ Forall (λ m, serverMessages [Extension x09] !! msg_Type m = None) mandated
  ∧ ListenAndHandle (session cfg_extension_only) (server [x02]) =
      (None, session cfg_extension_only,
       {| net := {| inbound := []; outbound := []; closed := true |};
          stdout := ["error: unsupported message type"; closed_line];
          sent := [] |}).
Proof.
  split; [reflexivity|]. split; [|by vm_compute].
  repeat constructor; by vm_compute.
Qed.

Lemma unsupported_type_is_fatal_witness :
  ListenAndHandle (session cfg_channel) (server stream_with_unknown_type) =
    (None, session cfg_channel,
     {| net := {| inbound := [x02]; outbound := []; closed := true |};
        stdout := ["error: unsupported message type"; closed_line];
        sent := [(7, Bell); (7, ServerCutText [x61; x62])] |}).
Proof.
  apply (unsupported_type_is_fatal (session cfg_channel)
           (server stream_with_unknown_type) mandated
           [Bell; ServerCutText [x61; x62]] (session cfg_channel) x09 [x02]).
  - reflexivity.
  - exact fixture_config_not_modified.
  - reflexivity.
  - by apply fixture_frames_unknown.
  - by vm_compute.
Defined.

(** The same stream read by a session that has no channel, as
    [NewClientConfig] leaves it: the unsupported type ends the loop all the
    same. *)
Example unsupported_type_is_fatal_without_channel :
  ListenAndHandle (session cfg_default) (server stream_with_unknown_type) =
    (None, session cfg_default,
     {| net := {| inbound := [x02]; outbound := []; closed := true |};
        stdout := [ignoring_line; ignoring_line;
                   "error: unsupported message type"; closed_line];
        sent := [] |}).
Proof. by vm_compute. Qed.

Lemma messages_delivered_in_wire_order_witness :
  ∃ more,
    sent (ListenAndHandle (session cfg_channel) (server stream_well_formed)).2 =
      [] ++ [(7, Bell); (7, ServerCutText [x61; x62]);
             (7, SetColorMapEntries 1 [(64, 64, 64)%N])] ++ more
    ∧ (@nil byte = [] → more = []).
Proof.
  apply (messages_delivered_in_wire_order (session cfg_channel)
           (server stream_well_formed) mandated 7
           [Bell; ServerCutText [x61; x62]; SetColorMapEntries 1 [(64, 64, 64)%N]]
           (set_ColorMap (<[1 := (64, 64, 64)%N]> (replicate 256 (0, 0, 0)%N))
              (session cfg_channel)) []).
  - reflexivity.
  - reflexivity.
  - exact fixture_config_not_modified.
  - reflexivity.
  - eapply Frames_message; [by vm_compute|reflexivity|].
    eapply Frames_message; [by vm_compute|reflexivity|].
    eapply Frames_message; [by vm_compute|reflexivity|].
    apply Frames_done.
Defined.

Lemma ListenAndHandle_hides_cause_witness :
  ListenAndHandle (session cfg_channel) (server stream_with_bad_body) =
    (None, session cfg_channel,
     (Close (session cfg_channel)
        {| net := {| inbound := []; outbound := []; closed := false |};
           stdout := ["error: parsing message" +:+ newline];
           sent := [(7, Bell)] |}).2).
Proof.
  apply (ListenAndHandle_hides_cause (session cfg_channel)
           (server stream_with_bad_body) mandated eq_refl ParsingMessage).
  by vm_compute.
Defined.

Lemma ListenAndHandle_nil_messages_witness :
  ListenAndHandle (session cfg_nil_messages) (server stream_well_formed) =
    (Some (NewVNCError "Client config error: ServerMessages undefined"),
     session cfg_nil_messages,
     (Close (session cfg_nil_messages) (server stream_well_formed)).2)
  ∧ inbound (net (ListenAndHandle (session cfg_nil_messages)
                    (server stream_well_formed)).2) = stream_well_formed
  ∧ sent (ListenAndHandle (session cfg_nil_messages) (server stream_well_formed)).2 = []
  ∧ stdout (ListenAndHandle (session cfg_nil_messages) (server stream_well_formed)).2 =
      [] ++ [closed_line].
Proof.
  exact (ListenAndHandle_nil_messages (session cfg_nil_messages)
           (server stream_well_formed) eq_refl).
Defined.

Lemma no_channel_discards_and_continues_witness :
  ListenAndHandle (session cfg_default) (server stream_with_bad_body) =
    (None, session cfg_default,
     {| net := {| inbound := []; outbound := []; closed := true |};
        stdout := [ignoring_line; "error: parsing message" +:+ newline; closed_line];
        sent := [] |}).
Proof.
  etrans.
  - apply (no_channel_discards_and_continues (session cfg_default)
             (server stream_with_bad_body) mandated [Bell] (session cfg_default)
             [x00; x01]).
    + reflexivity.
    + reflexivity.
    + exact fixture_config_not_modified.
    + reflexivity.
    + eapply Frames_message; [by vm_compute|reflexivity|]. apply Frames_done.
    + exists (VNCError "framebuffer update: no decoder for the rectangle").
      reflexivity.
  - by vm_compute.
Defined.

(** The three ways out of the loop print different lines and return the
    same nil. *)
Example loop_ends_on_read_error :
  ListenAndHandle (session cfg_channel) (server [x02]) =
    (None, session cfg_channel,
     {| net := {| inbound := []; outbound := []; closed := true |};
        stdout := ["error: reading from server" +:+ newline; closed_line];
        sent := [(7, Bell)] |}).
Proof. by vm_compute. Qed.

Example loop_ends_on_unsupported_type :
  ListenAndHandle (session cfg_channel) (server [x02; x09]) =
    (None, session cfg_channel,
     {| net := {| inbound := []; outbound := []; closed := true |};
        stdout := ["error: unsupported message type"; closed_line];
        sent := [(7, Bell)] |}).
Proof. by vm_compute. Qed.

Example loop_ends_on_decode_error :
  ListenAndHandle (session cfg_channel) (server stream_with_bad_body) =
    (None, session cfg_channel,
     {| net := {| inbound := []; outbound := []; closed := true |};
        stdout := ["error: parsing message" +:+ newline; closed_line];
        sent := [(7, Bell)] |}).
Proof. by vm_compute. Qed.

End Examples.

(** * Further properties of the dispatch loop and of [Connect] *)

Section MoreProperties.

Context {error Color Encoding PixelFormat ClientAuth ServerMessage : Type}.
Context {zeroColor : GoZero Color} {zeroPixelFormat : GoZero PixelFormat}.
Context {errors : @Errors error}.
Context {handshake : @Handshake error Color Encoding PixelFormat ClientAuth ServerMessage}.
Context {messages : @ServerMessageOps error Color Encoding PixelFormat ClientAuth ServerMessage}.
Context {defaults : @Defaults Encoding ClientAuth ServerMessage}.

Local Abbreviation ClientConn := (@ClientConn Color Encoding PixelFormat ClientAuth ServerMessage).
Local Abbreviation ClientConfig := (@ClientConfig ClientAuth ServerMessage).
Local Abbreviation World := (@World ServerMessage).

Implicit Types (conn : ClientConn) (cfg : ClientConfig) (w : World).
Implicit Types (table : gmap byte ServerMessage) (declared msgs : list ServerMessage).

(** *** The lookup table: the last declaration of a type wins *)

Lemma serverMessages_snoc declared (m : ServerMessage) :
  serverMessages (declared ++ [m]) = <[msg_Type m := m]> (serverMessages declared).
Proof. unfold serverMessages. by rewrite foldl_snoc. Qed.

(** X1.  Looking a type byte up in the table gives the last declared message
    of that type, and nothing when no declared message has it. *)
Theorem serverMessages_lookup_last declared (b : byte) :
  serverMessages declared !! b = last (filter (λ m, msg_Type m = b) declared).
Proof.
  induction declared as [|m declared IH] using rev_ind; [done|].
  rewrite serverMessages_snoc, filter_app, lookup_insert.
  case_decide as Hb.
  - by rewrite (filter_cons_True _ m []), filter_nil, last_snoc.
  - by rewrite (filter_cons_False _ m []), filter_nil, app_nil_r.
Qed.

(** X2.  A type byte is missing from the table exactly when no declared
    message has that type: the loop knows the declared types and no others. *)
Theorem serverMessages_missing_type declared (b : byte) :
  serverMessages declared !! b = None ↔ ∀ m, m ∈ declared → msg_Type m ≠ b.
Proof.
  rewrite eq_None_not_Some, serverMessages_registered. split.
  - intros Hnone m Hm Hb. apply Hnone. by exists m.
  - intros Hall (m & Hm & Hb). by apply (Hall m).
Qed.

(** X3.  When the declared messages have pairwise different types, each of
    them is the message registered for its type. *)
Theorem serverMessages_distinct_types declared (m : ServerMessage) :
  NoDup (msg_Type <$> declared) →
  m ∈ declared →
  serverMessages declared !! msg_Type m = Some m.
Proof.
  induction declared as [|d declared IH] using rev_ind; intros Hnodup Hm.
  { by apply elem_of_nil in Hm. }
  rewrite fmap_app in Hnodup. apply NoDup_app in Hnodup as (Hnodup & Hfresh & _).
  rewrite serverMessages_snoc, lookup_insert.
  apply elem_of_app in Hm as [Hm|Hm%list_elem_of_singleton].
  - rewrite decide_False; [by apply IH|].
    intros Heq. apply (Hfresh (msg_Type m)).
    + apply list_elem_of_fmap. by exists m.
    + simpl. rewrite <- Heq. by left.
  - subst d. by rewrite decide_True.
Qed.

(** *** The loop only reads *)

Lemma iteration_outbound table conn w :
  match iteration table conn w with
  | Break _ _ w' | Continue _ w' => outbound (net w') = outbound (net w)
  end.
Proof.
  unfold iteration, binary_Read_uint8.
  destruct (closed (net w)); [done|].
  destruct (inbound (net w)) as [|b body]; [done|]. simpl.
  destruct (table !! b) as [msg|]; [|done].
  destruct (parsed _); [|done].
  by destruct (ServerMessageCh _).
Qed.

Lemma listen_outbound table conn w :
  outbound (net (listen table conn w).2) = outbound (net w).
Proof.
  funelim (listen table conn w);
    match goal with H : iteration _ _ _ = _ |- _ =>
      pose proof (iteration_outbound table conn w) as Hout; rewrite H in Hout
    end.
  - done.
  - match goal with IH : outbound _ = _ |- _ => by rewrite IH end.
Qed.

(** X4.  [ListenAndHandle] never writes to the server: what the client has
    written on the connection is the same before and after the call. *)
Theorem ListenAndHandle_never_writes conn w :
  outbound (net (ListenAndHandle conn w).2) = outbound (net w).
Proof.
  unfold ListenAndHandle.
  destruct (ServerMessages (config conn)) as [declared|]; [|done].
  pose proof (listen_outbound (serverMessages declared) conn w) as Hout.
  by destruct (listen _ conn w) as [[cause conn'] w'].
Qed.

(** *** The configuration is carried through *)

Lemma iteration_config table conn w :
  config_not_modified →
  match iteration table conn w with
  | Break _ conn' _ | Continue conn' _ => config conn' = config conn
  end.
Proof.
  intros Hcfg. unfold iteration.
  destruct (binary_Read_uint8 (net w)) as [[b nc]|]; simpl; [|done].
  destruct (table !! b) as [msg|]; simpl; [|done].
  destruct (parsed _); simpl; [|by rewrite Hcfg].
  destruct (ServerMessageCh _); simpl; by rewrite Hcfg.
Qed.

Lemma listen_config table conn w :
  config_not_modified → config (listen table conn w).1.2 = config conn.
Proof.
  intros Hcfg. funelim (listen table conn w);
    match goal with H : iteration _ _ _ = _ |- _ =>
      pose proof (iteration_config table conn w Hcfg) as Hkeep; rewrite H in Hkeep
    end.
  - done.
  - match goal with IH : _ → config _ = _ |- _ => by rewrite IH end.
Qed.

(** X5.  When the decoders leave the configuration alone, the session
    [ListenAndHandle] hands back still carries the configuration it was
    called with. *)
Theorem ListenAndHandle_keeps_config conn w :
  config_not_modified →
  config (ListenAndHandle conn w).1.2 = config conn.
Proof.
  intros Hcfg. unfold ListenAndHandle.
  destruct (ServerMessages (config conn)) as [declared|]; [|done].
  pose proof (listen_config (serverMessages declared) conn w Hcfg) as Hkeep.
  by destruct (listen _ conn w) as [[cause conn'] w'].
Qed.

(** *** The other two ways out of the loop *)

(** X6.  Let the stream begin with well-formed messages of registered types
    and continue with a message of a registered type whose decoder fails.
    With a consumer channel configured, [ListenAndHandle] sends the messages
    decoded before, not the failing one; the session and the stream are as
    the failing decoder left them; the error is printed, not returned; the
    connection is closed. *)
Theorem decode_error_is_fatal conn w declared ch msgs conn' messageType body msg err :
  ServerMessages (config conn) = Some declared →
  ServerMessageCh (config conn) = Some ch →
  config_not_modified →
  closed (net w) = false →
  Frames (serverMessages declared) conn (inbound (net w)) msgs conn' (messageType :: body) →
  serverMessages declared !! messageType = Some msg →
  parsed (msg_Read msg conn' body) = inr err →
  ListenAndHandle conn w =
    (None, conn_after (msg_Read msg conn' body),
     {| net := {| inbound := drop (consumed (msg_Read msg conn' body)) body;
                  outbound := outbound (net w); closed := true |};
        stdout := stdout w ++ ["error: parsing message" +:+ newline; closed_line];
        sent := sent w ++ ((λ m, (ch, m)) <$> msgs) |}).
Proof.
  intros Hdecl Hch Hcfg Hopen Hfr Hreg Herr. unfold ListenAndHandle.
  rewrite Hdecl, (listen_frames _ _ _ _ _ _ Hcfg Hopen Hfr), Hch, listen_step.
  unfold iteration, binary_Read_uint8. simpl. rewrite Hopen, Hreg. simpl.
  rewrite Herr.
  unfold Close, closed_line, Println, Printf, set_net. simpl.
  by rewrite <- (assoc_L (++)).
Qed.

(** X7.  Let the stream consist of well-formed messages of registered types
    and then end.  With a consumer channel configured, [ListenAndHandle]
    sends them all, takes the end of the stream for a read error that it
    prints and does not return, and closes the connection. *)
Theorem end_of_stream_ends_loop conn w declared ch msgs conn' :
  ServerMessages (config conn) = Some declared →
  ServerMessageCh (config conn) = Some ch →
  config_not_modified →
  closed (net w) = false →
  Frames (serverMessages declared) conn (inbound (net w)) msgs conn' [] →
  ListenAndHandle conn w =
    (None, conn',
     {| net := {| inbound := []; outbound := outbound (net w); closed := true |};
        stdout := stdout w ++ ["error: reading from server" +:+ newline; closed_line];
        sent := sent w ++ ((λ m, (ch, m)) <$> msgs) |}).
Proof.
  intros Hdecl Hch Hcfg Hopen Hfr. unfold ListenAndHandle.
  rewrite Hdecl, (listen_frames _ _ _ _ _ _ Hcfg Hopen Hfr), Hch, listen_step.
  unfold iteration, binary_Read_uint8. simpl. rewrite Hopen. simpl.
  unfold Close, closed_line, Println, Printf, set_net. simpl.
  by rewrite <- (assoc_L (++)).
Qed.

(** X8.  When the first read of a type byte fails -- the connection is
    already closed, or the stream is empty -- [ListenAndHandle] sends
    nothing, leaves the session as it was, and still returns nil after
    closing. *)
Theorem first_read_fails conn w declared :
  ServerMessages (config conn) = Some declared →
  closed (net w) = true ∨ inbound (net w) = [] →
  ListenAndHandle conn w =
    (None, conn, (Close conn (Println "error: reading from server" w)).2)
  ∧ sent (ListenAndHandle conn w).2 = sent w.
Proof.
  intros Hdecl Hfail. unfold ListenAndHandle. rewrite Hdecl, listen_step.
  assert (Hread : binary_Read_uint8 (net w) = None).
  { unfold binary_Read_uint8. destruct Hfail as [-> | ->]; [done|].
    by destruct (closed (net w)). }
  unfold iteration. by rewrite Hread.
Qed.

(** *** Every run *)

Lemma listen_at_stop table conn w :
  Stops table conn (inbound (net w)) →
  sent (listen table conn w).2 = sent w.
Proof.
  intros Hstop. rewrite listen_step. unfold iteration, binary_Read_uint8.
  destruct (closed (net w)); [done|].
  destruct (inbound (net w)) as [|b body]; [done|]. simpl in *.
  destruct (table !! b) as [msg|]; [|done].
  destruct Hstop as [err Herr]. by rewrite Herr.
Qed.

(** X9.  Whatever the server sends, what [ListenAndHandle] puts on the
    consumer channel is the decoding, in order, of the well-formed messages
    the stream begins with, up to the first point at which the stream ends,
    a type is not registered or a decoder fails; and the call returns nil. *)
Theorem ListenAndHandle_sends_decoded_prefix conn w declared ch :
  ServerMessages (config conn) = Some declared →
  ServerMessageCh (config conn) = Some ch →
  config_not_modified →
  closed (net w) = false →
  ∃ msgs conn' bs',
    Frames (serverMessages declared) conn (inbound (net w)) msgs conn' bs'
    ∧ Stops (serverMessages declared) conn' bs'
    ∧ sent (ListenAndHandle conn w).2 = sent w ++ ((λ m, (ch, m)) <$> msgs)
    ∧ (ListenAndHandle conn w).1.1 = None.
Proof.
  intros Hdecl Hch Hcfg Hopen.
  destruct (stream_decomposes (serverMessages declared) conn (inbound (net w)))
    as (msgs & conn' & bs' & Hfr & Hstop).
  exists msgs, conn', bs'. split; [done|]. split; [done|].
  unfold ListenAndHandle.
  rewrite Hdecl, (listen_frames _ _ _ _ _ _ Hcfg Hopen Hfr), Hch.
  pose proof (listen_at_stop (serverMessages declared) conn'
                (handled (Some ch) msgs bs' w)) as Hsent.
  rewrite handled_inbound in Hsent. specialize (Hsent Hstop).
  by destruct (listen _ _ _) as [[cause conn''] w''].
Qed.

(** *** What the loop prints *)

(** X10.  Let the stream begin with well-formed messages of registered
    types, up to the point where the loop stops.  [ListenAndHandle] prints
    one ignoring line for each of these messages when no channel is
    configured and none when one is, then the error line of the cause for
    which the loop was in fact left -- a failed read at the end of the
    stream, an unregistered type, or a failed decoder, as the stream has it
    at that point -- and then the line of [Close].  The cause that the
    return value hides is on standard output. *)
Theorem ListenAndHandle_prints_cause conn w declared msgs conn' bs' :
  ServerMessages (config conn) = Some declared →
  config_not_modified →
  closed (net w) = false →
  Frames (serverMessages declared) conn (inbound (net w)) msgs conn' bs' →
  Stops (serverMessages declared) conn' bs' →
  (listen (serverMessages declared) conn w).1.1 =
    (stop_outcome (serverMessages declared) conn' bs').1.1
  ∧ stdout (ListenAndHandle conn w).2 =
      stdout w ++ dropped_lines (ServerMessageCh (config conn)) msgs ++
      [cause_line (listen (serverMessages declared) conn w).1.1; closed_line].
Proof.
  intros Hdecl Hcfg Hopen Hfr Hstop. unfold ListenAndHandle. rewrite Hdecl.
  rewrite (listen_run _ _ _ _ _ _ Hcfg Hopen Hfr Hstop). simpl.
  split; [done|]. unfold closed_line. by rewrite <- !(assoc_L (++)).
Qed.

(** *** The default configuration *)

(** X11.  A session whose configuration is the one [NewClientConfig] returns
    has a message table but no consumer channel: [ListenAndHandle] never
    answers with the configuration error and never sends anything. *)
Theorem default_config_delivers_nothing (p : string) conn w :
  config conn = NewClientConfig p →
  config_not_modified →
  (ListenAndHandle conn w).1.1 = None
  ∧ sent (ListenAndHandle conn w).2 = sent w.
Proof.
  intros Hdefault Hcfg. unfold ListenAndHandle. rewrite Hdefault. simpl.
  pose proof (listen_no_channel
                (serverMessages [NewFramebufferUpdateMessage None;
                                 SetColorMapEntriesMessage; BellMessage;
                                 ServerCutTextMessage]) conn w Hcfg) as Hsent.
  rewrite Hdefault in Hsent. specialize (Hsent eq_refl).
  by destruct (listen _ _ _) as [[cause conn'] w'].
Qed.

(** *** [Connect]: one result or the other *)

(** X12.  [Connect] returns a session or an error, never both and never
    neither. *)
Theorem Connect_session_xor_error cfg w :
  is_Some (Connect cfg w).1.1 ↔ (Connect cfg w).1.2 = None.
Proof.
  unfold Connect.
  repeat match goal with
         | |- context [match ?step ?c ?x with _ => _ end] =>
           destruct (step c x) as [[[?|] ?] ?]
         end; simpl; split; try done; by intros [? [=]].
Qed.

End MoreProperties.

(** * Further examples on the fixture *)

Section MoreExamples.
Import Fixture.

Lemma serverMessages_distinct_types_witness :
  serverMessages mandated !! msg_Type Bell = Some Bell.
Proof.
  apply (serverMessages_distinct_types mandated Bell).
  - apply (bool_decide_unpack _). by vm_compute.
  - unfold mandated. simpl. repeat constructor.
Defined.

Lemma ListenAndHandle_keeps_config_witness :
  config (ListenAndHandle (session cfg_channel) (server stream_well_formed)).1.2 =
    config (session cfg_channel).
Proof.
  exact (ListenAndHandle_keeps_config (session cfg_channel)
           (server stream_well_formed) fixture_config_not_modified).
Defined.

Lemma decode_error_is_fatal_witness :
  ListenAndHandle (session cfg_channel) (server stream_with_bad_body) =
    (None,
     conn_after (msg_Read (FramebufferUpdate None) (session cfg_channel) [x01]),
     {| net := {| inbound := drop (consumed (msg_Read (FramebufferUpdate None)
                                               (session cfg_channel) [x01])) [x01];
                  outbound := []; closed := true |};
        stdout := [] ++ ["error: parsing message" +:+ newline; closed_line];
        sent := [] ++ ((λ m, (7, m)) <$> [Bell]) |}).
Proof.
  apply (decode_error_is_fatal (session cfg_channel) (server stream_with_bad_body)
           mandated 7 [Bell] (session cfg_channel) x00 [x01] (FramebufferUpdate None)
           (VNCError "framebuffer update: no decoder for the rectangle")).
  - reflexivity.
  - reflexivity.
  - exact fixture_config_not_modified.
  - reflexivity.
  - eapply Frames_message; [by vm_compute|reflexivity|]. apply Frames_done.
  - by vm_compute.
  - reflexivity.
Defined.

Lemma end_of_stream_ends_loop_witness :
  ListenAndHandle (session cfg_channel) (server stream_well_formed) =
    (None,
     set_ColorMap (<[1 := (64, 64, 64)%N]> (replicate 256 (0, 0, 0)%N))
       (session cfg_channel),
     {| net := {| inbound := []; outbound := []; closed := true |};
        stdout := [] ++ ["error: reading from server" +:+ newline; closed_line];
        sent := [] ++ ((λ m, (7, m)) <$>
                  [Bell; ServerCutText [x61; x62];
                   SetColorMapEntries 1 [(64, 64, 64)%N]]) |}).
Proof.
  apply (end_of_stream_ends_loop (session cfg_channel) (server stream_well_formed)
           mandated 7).
  - reflexivity.
  - reflexivity.
  - exact fixture_config_not_modified.
  - reflexivity.
  - eapply Frames_message; [by vm_compute|reflexivity|].
    eapply Frames_message; [by vm_compute|reflexivity|].
    eapply Frames_message; [by vm_compute|reflexivity|].
    apply Frames_done.
Defined.

(** A connection that was closed before the call, with a bell still unread. *)
Lemma first_read_fails_witness :
  ListenAndHandle (session cfg_channel)
    ({| net := {| inbound := [x02]; outbound := []; closed := true |};
        stdout := []; sent := [] |} : W) =
    (None, session cfg_channel,
     (Close (session cfg_channel)
        (Println "error: reading from server"
           ({| net := {| inbound := [x02]; outbound := []; closed := true |};
               stdout := []; sent := [] |} : W))).2)
  ∧ sent (ListenAndHandle (session cfg_channel)
            ({| net := {| inbound := [x02]; outbound := []; closed := true |};
                stdout := []; sent := [] |} : W)).2 = [].
Proof.
  apply (first_read_fails (session cfg_channel)
           ({| net := {| inbound := [x02]; outbound := []; closed := true |};
               stdout := []; sent := [] |} : W) mandated).
  - reflexivity.
  - left. reflexivity.
Defined.

Lemma ListenAndHandle_sends_decoded_prefix_witness :
  ∃ msgs (conn' : Conn) bs',
    Frames (serverMessages mandated) (session cfg_channel)
      stream_with_unknown_type msgs conn' bs'
    ∧ Stops (serverMessages mandated) conn' bs'
    ∧ sent (ListenAndHandle (session cfg_channel) (server stream_with_unknown_type)).2 =
        [] ++ ((λ m, (7, m)) <$> msgs)
    ∧ (ListenAndHandle (session cfg_channel) (server stream_with_unknown_type)).1.1 = None.
Proof.
  apply (ListenAndHandle_sends_decoded_prefix (session cfg_channel)
           (server stream_with_unknown_type) mandated 7).
  - reflexivity.
  - reflexivity.
  - exact fixture_config_not_modified.
  - reflexivity.
Defined.

Lemma ListenAndHandle_prints_cause_witness :
  (listen (serverMessages mandated) (session cfg_default)
     (server stream_with_unknown_type)).1.1 = UnsupportedMessageType
  ∧ stdout (ListenAndHandle (session cfg_default) (server stream_with_unknown_type)).2 =
      [] ++ replicate 2 ignoring_line ++
      [cause_line (listen (serverMessages mandated) (session cfg_default)
                     (server stream_with_unknown_type)).1.1; closed_line].
Proof.
  destruct (ListenAndHandle_prints_cause (session cfg_default)
              (server stream_with_unknown_type) mandated
              [Bell; ServerCutText [x61; x62]] (session cfg_default) [x09; x02]
              eq_refl fixture_config_not_modified eq_refl
              (fixture_frames_unknown _ _ eq_refl) ltac:(by vm_compute))
    as [Hcause Hout].
  split.
  - etrans; [exact Hcause|by vm_compute].
  - etrans; [exact Hout|by vm_compute].
Defined.

Lemma default_config_delivers_nothing_witness :
  (ListenAndHandle (session cfg_default) (server stream_well_formed)).1.1 = None
  ∧ sent (ListenAndHandle (session cfg_default) (server stream_well_formed)).2 = [].
Proof.
  apply (default_config_delivers_nothing "pw" (session cfg_default)
           (server stream_well_formed)).
  - reflexivity.
  - exact fixture_config_not_modified.
Defined.

(** The table of a configuration that declares two messages of one type:
    the later one is dispatched. *)
Example later_declaration_wins :
  serverMessages [Extension x09; Bell; ServerCutText []; Extension x03] !! x03 =
    Some (Extension x03).
Proof. by vm_compute. Qed.

End MoreExamples.
